(** * Activity controllers of the classroom backend

    A shallow embedding of
    [backend/backend/api/controllers/ActivityController.py]:
    the two viewsets [ActivityController] and [TeamActivitiesController],
    over an explicit relational store.

    Request bodies are JSON dictionaries ([request.data]); the tables of the
    ORM are fields of a [Store] record that every handler threads through;
    a handler either returns a [Response] or lets a Python exception escape
    to the framework. *)

From stdpp Require Import gmap strings list.

Local Open Scope Z_scope.
Local Open Scope string_scope.

(** ** JSON values of a request body, with Python's truth value *)

#[local] Set Warnings "-register-all".

Inductive json : Type :=
  | JNull
  | JBool (b : bool)
  | JNum (z : Z)
  | JStr (s : string)
  | JList (l : list json).

(** [bool(v)] as an [if v:] evaluates it: [None], [False], [0], the empty
    string and the empty list are false. *)
Definition truthy (v : json) : bool :=
  match v with
  | JNull => false
  | JBool b => b
  | JNum z => negb (Z.eqb z 0)
  | JStr s => negb (String.eqb s "")
  | JList l => match l with [] => false | _ :: _ => true end
  end.

(** [v is not None] *)
Definition is_not_None (v : json) : bool :=
  match v with JNull => false | _ => true end.

(** [request.data.get(key, dflt)] *)
Definition get (data : gmap string json) (key : string) (dflt : json) : json :=
  default dflt (data !! key).

(** ** Exceptions and responses *)

Inductive model : Type := ClassRoomM | ActivityTemplateM | TeamM.

Inductive exn : Type :=
  | DoesNotExist (m : model)
  | ValueError
  | TypeError.

Definition result (A : Type) : Type := exn + A.

Definition object_name (m : model) : string :=
  match m with
  | ClassRoomM => "ClassRoom"
  | ActivityTemplateM => "ActivityTemplate"
  | TeamM => "Team"
  end.

(** [str(e)] for the exceptions the handlers print. *)
Definition str (e : exn) : string :=
  match e with
  | DoesNotExist m => object_name m ++ " matching query does not exist."
  | ValueError => "ValueError"
  | TypeError => "TypeError"
  end.

Definition HTTP_200_OK : Z := 200.
Definition HTTP_201_CREATED : Z := 201.
Definition HTTP_400_BAD_REQUEST : Z := 400.
Definition HTTP_404_NOT_FOUND : Z := 404.
Definition HTTP_500_INTERNAL_SERVER_ERROR : Z := 500.

(** ** The entities *)

(** An [Activity] row together with its many-to-many [team_id] relation.
    [due_date], [evaluation] and [total_score] hold the Python value that was
    assigned to the attribute, which for an override is the raw JSON value of
    the body. *)
Record Activity : Type := mkActivity {
  id : Z;
  title : string;
  description : string;
  classroom_id : option Z;
  team_id : gset Z;
  due_date : json;
  evaluation : json;
  total_score : json;
  submission_status : bool
}.

Record ActivityTemplate : Type := mkTemplate {
  template_pk : Z;
  template_title : string;
  template_description : string;
  template_due_date : json;
  template_evaluation : json;
  template_total_score : json
}.

(** The relational store.  Of a [ClassRoom] and a [Team] the controllers only
    ever use the primary key, so each table is the set of its keys. *)
Record Store : Type := mkStore {
  classrooms : gset Z;
  teams : gset Z;
  templates : gmap Z ActivityTemplate;
  activities : list Activity;
  next_id : Z
}.

(** Field assignments on an [Activity] object. *)
Definition with_id (a : Activity) (i : Z) : Activity :=
  mkActivity i (title a) (description a) (classroom_id a) (team_id a)
             (due_date a) (evaluation a) (total_score a) (submission_status a).

Definition with_teams (a : Activity) (ts : gset Z) : Activity :=
  mkActivity (id a) (title a) (description a) (classroom_id a) ts
             (due_date a) (evaluation a) (total_score a) (submission_status a).

Definition with_classroom (a : Activity) (c : Z) : Activity :=
  mkActivity (id a) (title a) (description a) (Some c) (team_id a)
             (due_date a) (evaluation a) (total_score a) (submission_status a).

Definition with_due_date (a : Activity) (v : json) : Activity :=
  mkActivity (id a) (title a) (description a) (classroom_id a) (team_id a)
             v (evaluation a) (total_score a) (submission_status a).

Definition with_evaluation (a : Activity) (v : json) : Activity :=
  mkActivity (id a) (title a) (description a) (classroom_id a) (team_id a)
             (due_date a) v (total_score a) (submission_status a).

Definition with_total_score (a : Activity) (v : json) : Activity :=
  mkActivity (id a) (title a) (description a) (classroom_id a) (team_id a)
             (due_date a) (evaluation a) v (submission_status a).

Definition with_activities (st : Store) (l : list Activity) (n : Z) : Store :=
  mkStore (classrooms st) (teams st) (templates st) l n.

(** What a handler sends back. *)
Inductive body : Type :=
  | Error (msg : string)
  | FieldErrors (errs : list (string * string))
  | One (a : Activity)
  | Many (l : list Activity)
  | FromTemplate (a : Activity) (t : ActivityTemplate).

Record Response : Type := mkResponse {
  data : body;
  status : Z
}.

(** ** The ORM calls the controllers make *)

(** The key a JSON value denotes in a [pk] lookup.  Numbers are keys, and a
    boolean is the integer Python takes it for; the coercions Django applies
    to other values are not modelled: such a lookup raises. *)
Definition to_pk (v : json) : result Z :=
  match v with
  | JNum z => inr z
  | JBool b => inr (Z.b2z b)
  | _ => inl ValueError
  end.

Fixpoint to_pks (vs : list json) : result (list Z) :=
  match vs with
  | [] => inr []
  | v :: vs' =>
      match to_pk v with
      | inl e => inl e
      | inr z =>
          match to_pks vs' with
          | inl e => inl e
          | inr zs => inr (z :: zs)
          end
      end
  end.

(** [Team.objects.filter(pk__in=team_ids)]: the teams of the table whose key
    is listed.  A key that names no team selects nothing; the query set is
    merely smaller.  Iterating something that is not a list raises. *)
Definition Team_filter_pk__in (st : Store) (team_ids : json) : result (gset Z) :=
  match team_ids with
  | JList vs =>
      match to_pks vs with
      | inl e => inl e
      | inr zs => inr (filter (λ t, t ∈ zs) (teams st))
      end
  | _ => inl TypeError
  end.

(** [ClassRoom.objects.get(pk=class_pk)] *)
Definition ClassRoom_get (st : Store) (class_pk : Z) : result Z :=
  if bool_decide (class_pk ∈ classrooms st) then inr class_pk
  else inl (DoesNotExist ClassRoomM).

(** [ActivityTemplate.objects.get(pk=template_id)] *)
Definition ActivityTemplate_get (st : Store) (template_id : json)
  : result ActivityTemplate :=
  match to_pk template_id with
  | inl e => inl e
  | inr k =>
      match templates st !! k with
      | Some t => inr t
      | None => inl (DoesNotExist ActivityTemplateM)
      end
  end.

(** [ClassRoom.objects.filter(pk=class_pk).exists()] and the same on [Team]. *)
Definition ClassRoom_exists (st : Store) (class_pk : Z) : bool :=
  bool_decide (class_pk ∈ classrooms st).

Definition Team_exists (st : Store) (team_pk : Z) : bool :=
  bool_decide (team_pk ∈ teams st).

(** Saving a new object inserts a row under the next key of the table. *)
Definition insert_activity (st : Store) (a : Activity) : Store * Activity :=
  let row := with_id a (next_id st) in
  (with_activities st (activities st ++ [row]) (next_id st + 1), row).

(** [activity.team_id.set(teams)]: replaces the relation of the row [pk]. *)
Definition m2m_set (st : Store) (pk : Z) (ts : gset Z) : Store :=
  with_activities st
    ((λ a, if bool_decide (id a = pk) then with_teams a ts else a)
       <$> activities st)
    (next_id st).

(** [activity.save()] of an object that already has a row: the columns of the
    row [id a] are overwritten with those of the object; the relation to the
    teams is not a column and stays as the store has it. *)
Definition update_activity (st : Store) (a : Activity) : Store :=
  with_activities st
    ((λ r, if bool_decide (id r = id a) then with_teams a (team_id r) else r)
       <$> activities st)
    (next_id st).

(** ** The serializer of the viewsets

    [ActivitySerializer] is declared in [api.serializers]; the controllers use
    it through [is_valid()], [errors], [save()] and [data].  Its schema is an
    interface here: which bodies are valid, the errors reported for the
    others, and the activity object built from a valid body. *)
Class ModelSerializer : Type := {
  is_valid : gmap string json → bool;
  errors : gmap string json → list (string * string);
  validated_instance : gmap string json → Activity
}.

(** Modelled from the spec: the [ActivitySerializer] declaration is missing
    from the sources.  [serializer.save()] persists the activity built from the
    body as a new row; that row has no teams attached until the controller
    sets them. *)
Definition save `{ModelSerializer} (st : Store) (request_data : gmap string json)
  : Store * Activity :=
  insert_activity st (with_teams (validated_instance request_data) ∅).

(** The row [save] inserts. *)
Definition saved_row `{ModelSerializer} (st : Store)
    (request_data : gmap string json) : Activity :=
  with_id (with_teams (validated_instance request_data) ∅) (next_id st).

(** Modelled from the spec: [Activity.create_activity_from_template] of
    [api.models] is missing from the sources.  It builds a new activity that
    copies every field of the template; the new object has no class, no teams
    and is not submitted, and the template is only read. *)
Definition create_activity_from_template (t : ActivityTemplate) : Activity :=
  mkActivity 0 (template_title t) (template_description t) None ∅
             (template_due_date t) (template_evaluation t)
             (template_total_score t) false.

(** ** [class ActivityController]

    [class_pk] is the capture of the route: [None] when the route carries
    none, otherwise a key (a non-empty string of the URL, hence true in an
    [if class_id:]). *)
Module ActivityController.
Section viewset.
Context `{ModelSerializer}.

(** [def create(self, request, *args, **kwargs)].  The store that comes
    back is the one the request leaves behind, also when the answer is an
    error. *)
Definition create (st : Store) (request_data : gmap string json)
  : Store * result Response :=
  if is_valid request_data then
    let '(st1, activity) := save st request_data in
    let team_ids := get request_data "team_id" (JList []) in
    if truthy team_ids then
      match Team_filter_pk__in st1 team_ids with
      | inr teams =>
          let st2 := m2m_set st1 (id activity) teams in
          let st3 := update_activity st2 activity in
          (st3, inr (mkResponse (One (with_teams activity teams))
                                HTTP_201_CREATED))
      | inl (DoesNotExist TeamM) =>
          (st1, inr (mkResponse (Error "One or more teams not found")
                                HTTP_404_NOT_FOUND))
      | inl e => (st1, inl e)
      end
    else
      (st1, inr (mkResponse (Error "Invalid or empty Team IDs provided")
                            HTTP_400_BAD_REQUEST))
  else
    (st, inr (mkResponse (FieldErrors (errors request_data))
                         HTTP_400_BAD_REQUEST)).

(** [def list(self, request, *args, **kwargs)].  The query cannot raise on
    a key, so the [except Exception] arm (500) has no case here. *)
Definition list (st : Store) (class_pk : option Z) : Response :=
  match class_pk with
  | Some class_id =>
      mkResponse
        (Many (filter (λ a, classroom_id a = Some class_id) (activities st)))
        HTTP_200_OK
  | None =>
      mkResponse (Error "Class ID not provided") HTTP_400_BAD_REQUEST
  end.

(** [except (ActivityTemplate.DoesNotExist, ClassRoom.DoesNotExist) as e] *)
Definition except_DoesNotExist (st : Store) (e : exn)
  : Store * result Response :=
  match e with
  | DoesNotExist ActivityTemplateM | DoesNotExist ClassRoomM =>
      (st, inr (mkResponse (Error (str e)) HTTP_404_NOT_FOUND))
  | _ => (st, inl e)
  end.

(** The three [if field: new_activity.field = field] of
    [create_from_template]. *)
Definition apply_overrides (a : Activity) (v_due_date v_evaluation
                                           v_total_score : json) : Activity :=
  let a1 := if truthy v_due_date then with_due_date a v_due_date else a in
  let a2 := if truthy v_evaluation then with_evaluation a1 v_evaluation
            else a1 in
  if truthy v_total_score then with_total_score a2 v_total_score else a2.

(** [def create_from_template(self, request, class_pk=None, pk=None)] *)
Definition create_from_template (st : Store)
    (request_data : gmap string json) (class_pk : option Z)
  : Store * result Response :=
  let template_id := get request_data "template_id" JNull in
  let team_ids := get request_data "team_ids" (JList []) in
  let v_due_date := get request_data "due_date" JNull in
  let v_evaluation := get request_data "evaluation" JNull in
  let v_total_score := get request_data "total_score" JNull in
  match is_not_None template_id, class_pk with
  | true, Some class_pk =>
      match ClassRoom_get st class_pk with
      | inl e => except_DoesNotExist st e
      | inr class_obj =>
          match ActivityTemplate_get st template_id with
          | inl e => except_DoesNotExist st e
          | inr template =>
              let new_activity := create_activity_from_template template in
              let attached :=
                if truthy team_ids then
                  match Team_filter_pk__in st team_ids with
                  | inr teams => inr (with_teams new_activity teams)
                  | inl e => inl e
                  end
                else inr new_activity in
              match attached with
              | inl (DoesNotExist TeamM) =>
                  (st, inr (mkResponse (Error "One or more teams not found")
                                       HTTP_404_NOT_FOUND))
              | inl e => except_DoesNotExist st e
              | inr new_activity =>
                  let new_activity :=
                    apply_overrides new_activity v_due_date v_evaluation
                                    v_total_score in
                  let new_activity := with_classroom new_activity class_obj in
                  let '(st1, new_activity) := insert_activity st new_activity in
                  (st1, inr (mkResponse (FromTemplate new_activity template)
                                        HTTP_201_CREATED))
              end
          end
      end
  | _, _ =>
      (st, inr (mkResponse (Error "Template ID or Class ID not provided")
                           HTTP_400_BAD_REQUEST))
  end.
End viewset.
End ActivityController.

(** ** [class TeamActivitiesController]

    Both handlers only read the store, and their queries cannot raise on
    keys, so the outer [except Exception] arm (500) has no case here. *)
Module TeamActivitiesController.

(** [def list(self, request, class_pk=None, team_pk=None)] *)
Definition list (st : Store) (class_pk team_pk : option Z) : Response :=
  match class_pk, team_pk with
  | Some class_pk, Some team_pk =>
      if negb (ClassRoom_exists st class_pk) then
        mkResponse (Error "Class not found") HTTP_404_NOT_FOUND
      else if negb (Team_exists st team_pk) then
        mkResponse (Error "Team not found") HTTP_404_NOT_FOUND
      else
        mkResponse
          (Many (filter (λ a, classroom_id a = Some class_pk
                              ∧ team_pk ∈ team_id a) (activities st)))
          HTTP_200_OK
  | _, None =>
      mkResponse (Error "Team ID not provided") HTTP_400_BAD_REQUEST
  | None, Some _ =>
      mkResponse (Error "Class ID not provided") HTTP_400_BAD_REQUEST
  end.

(** [def submitted_activities(self, request, class_pk=None, team_pk=None)] *)
Definition submitted_activities (st : Store) (class_pk team_pk : option Z)
  : Response :=
  match class_pk, team_pk with
  | Some class_pk, Some team_pk =>
      if negb (ClassRoom_exists st class_pk) then
        mkResponse (Error "Class not found") HTTP_404_NOT_FOUND
      else if negb (Team_exists st team_pk) then
        mkResponse (Error "Team not found") HTTP_404_NOT_FOUND
      else
        mkResponse
          (Many (filter (λ a, classroom_id a = Some class_pk
                              ∧ team_pk ∈ team_id a
                              ∧ submission_status a = true) (activities st)))
          HTTP_200_OK
  | _, None =>
      mkResponse (Error "Team ID not provided") HTTP_400_BAD_REQUEST
  | None, Some _ =>
      mkResponse (Error "Class ID not provided") HTTP_400_BAD_REQUEST
  end.
End TeamActivitiesController.

(** ** Concrete requests

    A small schema and a small store on which the handlers are run: a body is
    valid when it carries a string [title]. *)
Definition title_schema : ModelSerializer := {|
  is_valid d := match d !! "title" with Some (JStr _) => true | _ => false end;
  errors d := [("title", "This field is required.")];
  validated_instance d :=
    mkActivity 0
      (match d !! "title" with Some (JStr s) => s | _ => "" end) ""
      (match d !! "classroom_id" with Some (JNum c) => Some c | _ => None end)
      ∅ JNull JNull (JNum 100) false
|}.

Definition quiz_template : ActivityTemplate :=
  mkTemplate 1 "Quiz" "Weekly quiz" (JStr "2024-01-31") (JNum 5) (JNum 100).

(** Class 1 with teams 1 and 2, one template and no activity yet. *)
Definition sample_store : Store :=
  mkStore {[1]} {[1; 2]} {[1 := quiz_template]} [] 1.

(** A body for [POST /activities] naming teams 1 and 999; the store has no
    team 999. *)
Definition body_missing_team : gmap string json :=
  {[ "title" := JStr "Homework"; "team_id" := JList [JNum 1; JNum 999] ]}.

Definition body_two_teams : gmap string json :=
  {[ "title" := JStr "Homework"; "team_id" := JList [JNum 1; JNum 2] ]}.

Definition body_no_teams : gmap string json :=
  {[ "title" := JStr "Homework"; "team_id" := JList [] ]}.

(** Class 1 with teams 1 and 2 and three activities: one submitted by team 1,
    one that team 1 has not submitted, one submitted by team 2. *)
Definition graded_store : Store :=
  mkStore {[1]} {[1; 2]} ∅
    [ mkActivity 1 "Essay" "" (Some 1) {[1]} JNull JNull (JNum 100) true;
      mkActivity 2 "Lab" "" (Some 1) {[1]} JNull JNull (JNum 100) false;
      mkActivity 3 "Poster" "" (Some 1) {[2]} JNull JNull (JNum 100) true ]
    4.

(** A body for [from_template] in which the three override keys are present
    with values that are false in Python. *)
Definition body_falsy_overrides : gmap string json :=
  {[ "template_id" := JNum 1; "due_date" := JNull;
     "evaluation" := JNum 0; "total_score" := JNum 0 ]}.

Definition body_overrides : gmap string json :=
  {[ "template_id" := JNum 1; "due_date" := JStr "2024-02-29";
     "total_score" := JNum 50 ]}.

(** How a field of the new activity follows its key in the body: the
    template's value when the key is left out or its value is false, the
    value of the body when it is true. *)
Definition follows_override (request_data : gmap string json) (key : string)
    (new old : json) : Prop :=
  (request_data !! key = None → new = old)
  ∧ (∀ v, request_data !! key = Some v → truthy v = true → new = v)
  ∧ (∀ v, request_data !! key = Some v → truthy v = false → new = old).

(** ** Keys of the activity table

    The keys the table has given out are below [next_id] and no two rows
    share one: what auto-incremented primary keys guarantee. *)
Definition keys_ok (st : Store) : Prop :=
  Forall (λ a, id a < next_id st) (activities st)
  ∧ NoDup (id <$> activities st).

(** A body for [POST /activities] that names its class and two teams. *)
Definition body_class_two_teams : gmap string json :=
  {[ "title" := JStr "Homework"; "classroom_id" := JNum 1;
     "team_id" := JList [JNum 1; JNum 2] ]}.

(** A body for [from_template] with teams, one of which does not exist. *)
Definition body_template_teams : gmap string json :=
  {[ "template_id" := JNum 1; "team_ids" := JList [JNum 2; JNum 999] ]}.

(** A body for [from_template] that names a template the store lacks. *)
Definition body_unknown_template : gmap string json :=
  {[ "template_id" := JNum 5 ]}.

(** [graded_store] with the quiz template added. *)
Definition graded_store_with_template : Store :=
  mkStore (classrooms graded_store) (teams graded_store)
          {[1 := quiz_template]} (activities graded_store)
          (next_id graded_store).

(** * Properties *)

Import ActivityController.

(** ** Reading the body *)

Lemma get_Some (request_data : gmap string json) (key : string) (v dflt : json) :
  request_data !! key = Some v → get request_data key dflt = v.
Proof. intros Hv. unfold get. by rewrite Hv. Qed.

Lemma get_None (request_data : gmap string json) (key : string) (dflt : json) :
  request_data !! key = None → get request_data key dflt = dflt.
Proof. intros Hv. unfold get. by rewrite Hv. Qed.

(** ** The ORM queries *)

Lemma to_pks_JNum (ids : Datatypes.list Z) : to_pks (JNum <$> ids) = inr ids.
Proof.
  induction ids as [|i ids IH]; [done|].
  cbn [fmap list_fmap to_pks to_pk]. fold (fmap JNum ids). by rewrite IH.
Qed.

Lemma Team_filter_pk__in_numbers (st : Store) (ids : Datatypes.list Z) :
  Team_filter_pk__in st (JList (JNum <$> ids))
  = inr (filter (λ t, t ∈ ids) (teams st)).
Proof. unfold Team_filter_pk__in. by rewrite to_pks_JNum. Qed.

(** The query set of a [filter] is never a [DoesNotExist]: only [get] raises
    it. *)
Lemma Team_filter_pk__in_no_DoesNotExist (st : Store) (v : json) (m : model) :
  Team_filter_pk__in st v ≠ inl (DoesNotExist m).
Proof.
  unfold Team_filter_pk__in. destruct v as [| | | |vs]; try discriminate.
  assert (to_pks vs ≠ inl (DoesNotExist m)) as Hvs.
  { induction vs as [|v vs IH]; [discriminate|]. cbn [to_pks].
    destruct v; cbn [to_pk]; try discriminate;
      destruct (to_pks vs) as [e|zs]; try discriminate;
      intros [= ->]; by apply IH. }
  destruct (to_pks vs) as [e|zs]; [|discriminate].
  intros [= ->]. by apply Hvs.
Qed.

Lemma filter_listed_teams (ts : gset Z) (ids : Datatypes.list Z) :
  (∀ t, t ∈ ids → t ∈ ts) →
  filter (λ t, t ∈ ids) ts = list_to_set ids.
Proof.
  intros Hall. apply set_eq. intros t.
  rewrite elem_of_filter, elem_of_list_to_set. split; [by intros [? _]|].
  intros Ht. split; [done|]. by apply Hall.
Qed.

(** ** [ActivityController.create] *)

Section create.
Context `{ModelSerializer}.

Lemma save_eq (st : Store) (request_data : gmap string json) :
  save st request_data
  = (with_activities st (activities st ++ [saved_row st request_data])
                     (next_id st + 1),
     saved_row st request_data).
Proof. reflexivity. Qed.

(** No path of [create] answers 404: the arm that would is guarded by an
    exception that the query never raises. *)
Lemma create_never_404 (st st' : Store) (request_data : gmap string json)
      (r : Response) :
  create st request_data = (st', inr r) → status r ≠ HTTP_404_NOT_FOUND.
Proof.
  unfold create. destruct (is_valid request_data).
  - rewrite save_eq.
    destruct (truthy (get request_data "team_id" (JList []))).
    + destruct (Team_filter_pk__in _ _) as [e|ts] eqn:Hq.
      * destruct e as [m| |]; try (intros [= _ <-]; discriminate).
        by apply Team_filter_pk__in_no_DoesNotExist in Hq.
      * by intros [= _ <-].
    + by intros [= _ <-].
  - by intros [= _ <-].
Qed.

Lemma create_with_numbers (st : Store) (request_data : gmap string json)
      (ids : Datatypes.list Z) :
  is_valid request_data = true →
  request_data !! "team_id" = Some (JList (JNum <$> ids)) →
  ids ≠ [] →
  let row := with_teams (saved_row st request_data)
                        (filter (λ t, t ∈ ids) (teams st)) in
  ∃ st', create st request_data
         = (st', inr (mkResponse (One row) HTTP_201_CREATED))
         ∧ row ∈ activities st'.
Proof.
  intros Hvalid Hids Hne row. unfold create.
  rewrite Hvalid, save_eq. cbv beta iota zeta.
  rewrite (get_Some _ _ _ _ Hids).
  replace (truthy (JList (JNum <$> ids))) with true
    by (by destruct ids).
  rewrite Team_filter_pk__in_numbers. cbn [teams with_activities].
  eexists. split; [reflexivity|].
  unfold update_activity, m2m_set. cbn [activities with_activities].
  rewrite !fmap_app. apply elem_of_app. right.
  cbn [fmap list_fmap saved_row with_id id].
  rewrite (bool_decide_eq_true_2 (next_id st = next_id st)) by done.
  cbn [with_teams id team_id].
  rewrite (bool_decide_eq_true_2 (next_id st = next_id st)) by done.
  apply list_elem_of_singleton. reflexivity.
Qed.

(** C4: a valid body whose [team_id] is a non-empty list of keys of existing
    teams is answered 201 with the created activity, which is stored under
    the next key and whose set of teams is the requested set. *)
Theorem create_attaches_requested_teams (st : Store)
      (request_data : gmap string json) (ids : Datatypes.list Z) :
  is_valid request_data = true →
  request_data !! "team_id" = Some (JList (JNum <$> ids)) →
  ids ≠ [] →
  (∀ t, t ∈ ids → t ∈ teams st) →
  ∃ st' a,
    create st request_data
    = (st', inr (mkResponse (One a) HTTP_201_CREATED))
    ∧ team_id a = list_to_set ids
    ∧ a ∈ activities st'
    ∧ id a = next_id st.
Proof.
  intros Hvalid Hids Hne Hall.
  destruct (create_with_numbers st request_data ids Hvalid Hids Hne)
    as (st' & Hrun & Hrow).
  exists st', (with_teams (saved_row st request_data)
                          (filter (λ t, t ∈ ids) (teams st))).
  split; [exact Hrun|]. split; [|split; [exact Hrow|reflexivity]].
  cbn [team_id with_teams]. by apply filter_listed_teams.
Qed.

(** C7: a body whose [team_id] is the empty list (or is left out, which
    reads as the empty list) is answered 400, whether or not the rest of
    the body is valid. *)
Theorem create_empty_team_list_400 (st : Store)
      (request_data : gmap string json) :
  get request_data "team_id" (JList []) = JList [] →
  ∃ st' r,
    create st request_data = (st', inr r)
    ∧ status r = HTTP_400_BAD_REQUEST.
Proof.
  intros Hempty. unfold create. destruct (is_valid request_data).
  - rewrite save_eq. cbv beta iota zeta. rewrite Hempty. cbn [truthy].
    eexists _, _. split; reflexivity.
  - eexists _, _. split; reflexivity.
Qed.

(** C10: for a valid body with an empty [team_id] list the row is inserted
    before the list is looked at: the answer is 400 and the store has one
    more activity, under the next key and with no team; the store is not
    the one the request found. *)
Theorem create_empty_team_list_persists (st : Store)
      (request_data : gmap string json) :
  is_valid request_data = true →
  request_data !! "team_id" = Some (JList []) →
  ∃ st' a,
    create st request_data
    = (st', inr (mkResponse (Error "Invalid or empty Team IDs provided")
                            HTTP_400_BAD_REQUEST))
    ∧ activities st' = (activities st ++ [a])%list
    ∧ team_id a = ∅
    ∧ id a = next_id st
    ∧ st' ≠ st.
Proof.
  intros Hvalid Hids. unfold create.
  rewrite Hvalid, save_eq. cbv beta iota zeta.
  rewrite (get_Some _ _ _ _ Hids). cbn [truthy].
  eexists _, (saved_row st request_data).
  split; [reflexivity|]. repeat split.
  intros Heq. apply (f_equal (λ s, length (activities s))) in Heq.
  cbn [activities with_activities] in Heq.
  rewrite length_app in Heq. cbn [length] in Heq. lia.
Qed.
End create.

(** C1: on a store without team 999, a valid body that asks for teams 1 and
    999 is answered 201, not 404; the created activity is stored with
    team 1, the one requested team that exists. *)
Theorem create_missing_team_is_201 :
  (999 ∉ teams sample_store)
  ∧ @is_valid title_schema body_missing_team = true
  ∧ ∃ st' a,
      @create title_schema sample_store body_missing_team
      = (st', inr (mkResponse (One a) HTTP_201_CREATED))
      ∧ team_id a = {[1]}
      ∧ activities st' = [a].
Proof.
  split; [by vm_compute|]. split; [reflexivity|].
  eexists _, _. split; [vm_compute; reflexivity|].
  split; vm_compute; reflexivity.
Qed.

(** [create_attaches_requested_teams] on the sample store, for teams 1
    and 2. *)
Lemma create_attaches_requested_teams_witness :
  ∃ st' a,
    @create title_schema sample_store body_two_teams
    = (st', inr (mkResponse (One a) HTTP_201_CREATED))
    ∧ team_id a = list_to_set [1; 2]
    ∧ a ∈ activities st'
    ∧ id a = next_id sample_store.
Proof.
  apply (@create_attaches_requested_teams title_schema sample_store
           body_two_teams [1; 2]).
  - reflexivity.
  - reflexivity.
  - discriminate.
  - intros t [->|[->|[]%elem_of_nil]%elem_of_cons]%elem_of_cons;
      apply (bool_decide_unpack _); vm_compute; exact I.
Defined.

(** [create_empty_team_list_400] on a body that is valid but for its empty
    list of teams. *)
Lemma create_empty_team_list_400_witness :
  ∃ st' r,
    @create title_schema sample_store body_no_teams = (st', inr r)
    ∧ status r = HTTP_400_BAD_REQUEST.
Proof.
  apply (@create_empty_team_list_400 title_schema sample_store body_no_teams).
  reflexivity.
Defined.

(** A body without a title and with an empty list of teams is refused by the
    schema, 400 as well, and nothing is stored. *)
Example create_invalid_body_400 :
  @create title_schema sample_store {[ "team_id" := JList [] ]}
  = (sample_store,
     inr (mkResponse (FieldErrors [("title", "This field is required.")])
                     HTTP_400_BAD_REQUEST)).
Proof. reflexivity. Qed.

(** [create_empty_team_list_persists] on the sample store. *)
Lemma create_empty_team_list_persists_witness :
  ∃ st' a,
    @create title_schema sample_store body_no_teams
    = (st', inr (mkResponse (Error "Invalid or empty Team IDs provided")
                            HTTP_400_BAD_REQUEST))
    ∧ activities st' = (activities sample_store ++ [a])%list
    ∧ team_id a = ∅
    ∧ id a = next_id sample_store
    ∧ st' ≠ sample_store.
Proof.
  apply (@create_empty_team_list_persists title_schema sample_store
           body_no_teams); reflexivity.
Defined.

(** ** [ActivityController.list] *)

(** C8: without a class id the answer is 400; with one it is 200 and the
    list of the stored activities whose [classroom_id] is that id, in the
    order of the table, each once, and the empty list when there is none. *)
Theorem list_by_class (st : Store) :
  list st None
  = mkResponse (Error "Class ID not provided") HTTP_400_BAD_REQUEST
  ∧ ∀ class_id, ∃ l,
      list st (Some class_id) = mkResponse (Many l) HTTP_200_OK
      ∧ (∀ a, a ∈ l ↔ a ∈ activities st ∧ classroom_id a = Some class_id)
      ∧ l `sublist_of` activities st
      ∧ ((∀ a, a ∈ activities st → classroom_id a ≠ Some class_id) → l = []).
Proof.
  split; [reflexivity|]. intros class_id.
  exists (filter (λ a, classroom_id a = Some class_id) (activities st)).
  split; [reflexivity|]. split; [|split].
  - intros a. rewrite list_elem_of_filter. tauto.
  - apply sublist_filter.
  - intros Hnone. apply elem_of_nil_inv. intros a.
    rewrite list_elem_of_filter. intros [Hc Ha]. by apply (Hnone a).
Qed.

(** C2, the claim refuted: class 7 does not exist, and listing its
    activities is answered 200 with an empty list, the very answer given for
    class 1, which exists and has no activity. *)
Lemma list_of_missing_class_is_200 :
  (7 ∉ classrooms sample_store)
  ∧ (1 ∈ classrooms sample_store)
  ∧ list sample_store (Some 7) = mkResponse (Many []) HTTP_200_OK
  ∧ list sample_store (Some 7) = list sample_store (Some 1).
Proof.
  split; [|split; [|split; reflexivity]].
  - apply (bool_decide_unpack _). vm_compute. exact I.
  - apply (bool_decide_unpack _). vm_compute. exact I.
Qed.

(** ** [TeamActivitiesController] *)

Lemma ClassRoom_exists_true (st : Store) (class_pk : Z) :
  class_pk ∈ classrooms st → ClassRoom_exists st class_pk = true.
Proof. intros Hin. unfold ClassRoom_exists. by apply bool_decide_eq_true_2. Qed.

Lemma ClassRoom_exists_false (st : Store) (class_pk : Z) :
  class_pk ∉ classrooms st → ClassRoom_exists st class_pk = false.
Proof. intros Hin. unfold ClassRoom_exists. by apply bool_decide_eq_false_2. Qed.

Lemma Team_exists_true (st : Store) (team_pk : Z) :
  team_pk ∈ teams st → Team_exists st team_pk = true.
Proof. intros Hin. unfold Team_exists. by apply bool_decide_eq_true_2. Qed.

Lemma Team_exists_false (st : Store) (team_pk : Z) :
  team_pk ∉ teams st → Team_exists st team_pk = false.
Proof. intros Hin. unfold Team_exists. by apply bool_decide_eq_false_2. Qed.

(** C5: when the class and the team exist, [submitted_activities] answers 200
    with a list of stored activities that are all submitted, of that class
    and of that team; an activity of the pair that is not submitted is not
    in the list, and one that is submitted is. *)
Theorem submitted_activities_only_submitted (st : Store) (class_pk team_pk : Z) :
  class_pk ∈ classrooms st →
  team_pk ∈ teams st →
  ∃ l,
    TeamActivitiesController.submitted_activities st (Some class_pk)
                                                  (Some team_pk)
    = mkResponse (Many l) HTTP_200_OK
    ∧ (∀ a, a ∈ l →
            submission_status a = true ∧ classroom_id a = Some class_pk
            ∧ team_pk ∈ team_id a ∧ a ∈ activities st)
    ∧ (∀ a, a ∈ activities st → classroom_id a = Some class_pk →
            team_pk ∈ team_id a → submission_status a = false → a ∉ l)
    ∧ (∀ a, a ∈ activities st → classroom_id a = Some class_pk →
            team_pk ∈ team_id a → submission_status a = true → a ∈ l).
Proof.
  intros Hclass Hteam. unfold TeamActivitiesController.submitted_activities.
  rewrite (ClassRoom_exists_true _ _ Hclass), (Team_exists_true _ _ Hteam).
  cbn [negb]. eexists. split; [reflexivity|]. split; [|split].
  - intros a ((Hc & Ht & Hs) & Ha)%list_elem_of_filter. tauto.
  - intros a _ _ _ Hs ((_ & _ & Hs') & _)%list_elem_of_filter. congruence.
  - intros a Ha Hc Ht Hs. apply list_elem_of_filter. tauto.
Qed.

(** [submitted_activities_only_submitted] for class 1 and team 1 of
    [graded_store]. *)
Lemma submitted_activities_only_submitted_witness :
  ∃ l,
    TeamActivitiesController.submitted_activities graded_store (Some 1) (Some 1)
    = mkResponse (Many l) HTTP_200_OK
    ∧ (∀ a, a ∈ l →
            submission_status a = true ∧ classroom_id a = Some 1
            ∧ 1 ∈ team_id a ∧ a ∈ activities graded_store)
    ∧ (∀ a, a ∈ activities graded_store → classroom_id a = Some 1 →
            1 ∈ team_id a → submission_status a = false → a ∉ l)
    ∧ (∀ a, a ∈ activities graded_store → classroom_id a = Some 1 →
            1 ∈ team_id a → submission_status a = true → a ∈ l).
Proof.
  apply (submitted_activities_only_submitted graded_store 1 1);
    apply (bool_decide_unpack _); vm_compute; exact I.
Defined.

(** On [graded_store] the list is the essay alone: the lab of the same class
    and team is not submitted and is left out. *)
Example submitted_activities_graded_store :
  TeamActivitiesController.submitted_activities graded_store (Some 1) (Some 1)
  = mkResponse
      (Many [mkActivity 1 "Essay" "" (Some 1) {[1]} JNull JNull (JNum 100) true])
      HTTP_200_OK.
Proof. vm_compute. reflexivity. Qed.

(** C6: with both ids given, [list] and [submitted_activities] answer 404
    "Class not found" when the class does not exist, 404 "Team not found"
    when the class exists and the team does not, and 200 with the empty list
    when both exist and no activity matches. *)
Theorem team_listing_missing_or_empty (st : Store) (class_pk team_pk : Z) :
  (class_pk ∉ classrooms st →
     TeamActivitiesController.list st (Some class_pk) (Some team_pk)
     = mkResponse (Error "Class not found") HTTP_404_NOT_FOUND
     ∧ TeamActivitiesController.submitted_activities st (Some class_pk)
                                                     (Some team_pk)
       = mkResponse (Error "Class not found") HTTP_404_NOT_FOUND)
  ∧ (class_pk ∈ classrooms st → team_pk ∉ teams st →
     TeamActivitiesController.list st (Some class_pk) (Some team_pk)
     = mkResponse (Error "Team not found") HTTP_404_NOT_FOUND
     ∧ TeamActivitiesController.submitted_activities st (Some class_pk)
                                                     (Some team_pk)
       = mkResponse (Error "Team not found") HTTP_404_NOT_FOUND)
  ∧ (class_pk ∈ classrooms st → team_pk ∈ teams st →
     ((∀ a, a ∈ activities st →
            ¬ (classroom_id a = Some class_pk ∧ team_pk ∈ team_id a)) →
      TeamActivitiesController.list st (Some class_pk) (Some team_pk)
      = mkResponse (Many []) HTTP_200_OK)
     ∧ ((∀ a, a ∈ activities st →
              ¬ (classroom_id a = Some class_pk ∧ team_pk ∈ team_id a
                 ∧ submission_status a = true)) →
        TeamActivitiesController.submitted_activities st (Some class_pk)
                                                      (Some team_pk)
        = mkResponse (Many []) HTTP_200_OK)).
Proof.
  unfold TeamActivitiesController.list,
    TeamActivitiesController.submitted_activities.
  split; [|split].
  - intros Hclass. by rewrite (ClassRoom_exists_false _ _ Hclass).
  - intros Hclass Hteam.
    by rewrite (ClassRoom_exists_true _ _ Hclass),
               (Team_exists_false _ _ Hteam).
  - intros Hclass Hteam.
    rewrite (ClassRoom_exists_true _ _ Hclass), (Team_exists_true _ _ Hteam).
    cbn [negb]. split; intros Hnone; do 2 f_equal;
      apply elem_of_nil_inv; intros a [Hp Ha]%list_elem_of_filter;
      by apply (Hnone a).
Qed.

(** The three cases of [team_listing_missing_or_empty] on the sample store:
    class 7 is missing, team 9 is missing, class 1 and team 2 have no
    activity. *)
Lemma team_listing_missing_or_empty_witness :
  (TeamActivitiesController.list sample_store (Some 7) (Some 1)
   = mkResponse (Error "Class not found") HTTP_404_NOT_FOUND
   ∧ TeamActivitiesController.submitted_activities sample_store (Some 7)
                                                   (Some 1)
     = mkResponse (Error "Class not found") HTTP_404_NOT_FOUND)
  ∧ (TeamActivitiesController.list sample_store (Some 1) (Some 9)
     = mkResponse (Error "Team not found") HTTP_404_NOT_FOUND
     ∧ TeamActivitiesController.submitted_activities sample_store (Some 1)
                                                     (Some 9)
       = mkResponse (Error "Team not found") HTTP_404_NOT_FOUND)
  ∧ (TeamActivitiesController.list sample_store (Some 1) (Some 2)
     = mkResponse (Many []) HTTP_200_OK
     ∧ TeamActivitiesController.submitted_activities sample_store (Some 1)
                                                     (Some 2)
       = mkResponse (Many []) HTTP_200_OK).
Proof.
  split; [|split].
  - apply (proj1 (team_listing_missing_or_empty sample_store 7 1)).
    apply (bool_decide_unpack _). vm_compute. exact I.
  - apply (proj1 (proj2 (team_listing_missing_or_empty sample_store 1 9)));
      apply (bool_decide_unpack _); vm_compute; exact I.
  - destruct (proj2 (proj2 (team_listing_missing_or_empty sample_store 1 2)))
      as [Hlist Hsubmitted];
      [apply (bool_decide_unpack _); vm_compute; exact I ..|].
    split; [apply Hlist|apply Hsubmitted];
      intros a Ha; by apply elem_of_nil in Ha.
Defined.

(** ** [ActivityController.create_from_template] *)

Lemma ClassRoom_get_found (st : Store) (class_pk : Z) :
  class_pk ∈ classrooms st → ClassRoom_get st class_pk = inr class_pk.
Proof. intros Hin. unfold ClassRoom_get. by rewrite bool_decide_eq_true_2. Qed.

Lemma ClassRoom_get_missing (st : Store) (class_pk : Z) :
  class_pk ∉ classrooms st →
  ClassRoom_get st class_pk = inl (DoesNotExist ClassRoomM).
Proof. intros Hin. unfold ClassRoom_get. by rewrite bool_decide_eq_false_2. Qed.

(** What the three guarded assignments leave in each field. *)
Lemma apply_overrides_fields (a : Activity) (d e t : json) :
  let a' := apply_overrides a d e t in
  id a' = id a ∧ title a' = title a ∧ description a' = description a
  ∧ classroom_id a' = classroom_id a ∧ team_id a' = team_id a
  ∧ submission_status a' = submission_status a
  ∧ due_date a' = (if truthy d then d else due_date a)
  ∧ evaluation a' = (if truthy e then e else evaluation a)
  ∧ total_score a' = (if truthy t then t else total_score a).
Proof.
  unfold apply_overrides.
  destruct (truthy d), (truthy e), (truthy t); cbn; repeat split.
Qed.

Lemma follows_override_get (request_data : gmap string json) (key : string)
      (new old : json) :
  new = (if truthy (get request_data key JNull)
         then get request_data key JNull else old) →
  follows_override request_data key new old.
Proof.
  intros ->. unfold follows_override, get. destruct (request_data !! key) as [v|].
  - cbn [default]. repeat split; [done| |];
      intros v' [= <-] Hv; cbn; by rewrite Hv.
  - cbn. repeat split; done.
Qed.

(** The whole of a successful instantiation, for a body whose [team_ids] is a
    list of keys (the empty list when the key is left out). *)
Lemma create_from_template_run (st : Store) (request_data : gmap string json)
      (class_pk k : Z) (template : ActivityTemplate) (ids : Datatypes.list Z) :
  class_pk ∈ classrooms st →
  request_data !! "template_id" = Some (JNum k) →
  templates st !! k = Some template →
  get request_data "team_ids" (JList []) = JList (JNum <$> ids) →
  let a :=
    with_id
      (with_classroom
         (apply_overrides
            (with_teams (create_activity_from_template template)
                        (filter (λ t, t ∈ ids) (teams st)))
            (get request_data "due_date" JNull)
            (get request_data "evaluation" JNull)
            (get request_data "total_score" JNull))
         class_pk)
      (next_id st) in
  create_from_template st request_data (Some class_pk)
  = (with_activities st (activities st ++ [a]) (next_id st + 1),
     inr (mkResponse (FromTemplate a template) HTTP_201_CREATED)).
Proof.
  intros Hclass Hid Htemplate Hteams a. unfold create_from_template.
  rewrite (get_Some _ _ _ _ Hid), Hteams. cbn [is_not_None].
  rewrite (ClassRoom_get_found _ _ Hclass).
  unfold ActivityTemplate_get. cbn [to_pk]. rewrite Htemplate.
  destruct ids as [|i ids].
  - cbn [fmap list_fmap truthy insert_activity]. subst a.
    replace (filter (λ t : Z, t ∈ []) (teams st)) with (∅ : gset Z);
      [reflexivity|].
    apply set_eq. intros t. rewrite elem_of_filter, elem_of_nil.
    split; [by intros ?%not_elem_of_empty|tauto].
  - replace (truthy (JList (JNum <$> i :: ids))) with true by done.
    rewrite Team_filter_pk__in_numbers. reflexivity.
Qed.

(** C3, the claim refuted: the body carries the keys [due_date],
    [evaluation] and [total_score] with the values [null], [0] and [0]; the
    instantiation succeeds and the new activity has the template's due date,
    evaluation and total score, not the values of the body. *)
Lemma falsy_overrides_are_not_applied :
  body_falsy_overrides !! "due_date" = Some JNull
  ∧ body_falsy_overrides !! "evaluation" = Some (JNum 0)
  ∧ body_falsy_overrides !! "total_score" = Some (JNum 0)
  ∧ ∃ st' a,
      create_from_template sample_store body_falsy_overrides (Some 1)
      = (st', inr (mkResponse (FromTemplate a quiz_template) HTTP_201_CREATED))
      ∧ due_date a = JStr "2024-01-31"
      ∧ evaluation a = JNum 5
      ∧ total_score a = JNum 100.
Proof.
  repeat (split; [reflexivity|]).
  eexists _, _. split; [vm_compute; reflexivity|]. repeat split.
Qed.

(** C3, as the code has it: for an existing class and template the
    instantiation is answered 201 with the new activity and the template; the
    activity has the template's title and description, the class of the
    route, and in [due_date], [evaluation] and [total_score] the value of the
    body when the key is present with a value that is true in Python, and
    the template's value when the key is left out or its value is false. *)
Theorem create_from_template_fields (st : Store)
      (request_data : gmap string json) (class_pk k : Z)
      (template : ActivityTemplate) (ids : Datatypes.list Z) :
  class_pk ∈ classrooms st →
  request_data !! "template_id" = Some (JNum k) →
  templates st !! k = Some template →
  get request_data "team_ids" (JList []) = JList (JNum <$> ids) →
  ∃ st' a,
    create_from_template st request_data (Some class_pk)
    = (st', inr (mkResponse (FromTemplate a template) HTTP_201_CREATED))
    ∧ a ∈ activities st'
    ∧ title a = template_title template
    ∧ description a = template_description template
    ∧ classroom_id a = Some class_pk
    ∧ follows_override request_data "due_date" (due_date a)
                       (template_due_date template)
    ∧ follows_override request_data "evaluation" (evaluation a)
                       (template_evaluation template)
    ∧ follows_override request_data "total_score" (total_score a)
                       (template_total_score template).
Proof.
  intros Hclass Hid Htemplate Hteams.
  pose proof (create_from_template_run st request_data class_pk k template ids
                Hclass Hid Htemplate Hteams) as Hrun.
  cbv zeta in Hrun. eexists _, _. split; [exact Hrun|].
  split.
  { cbn [activities with_activities]. apply elem_of_app. right.
    by apply list_elem_of_singleton. }
  match goal with
  | |- context [apply_overrides ?a ?d ?e ?t] =>
      destruct (apply_overrides_fields a d e t)
        as (_ & Htitle & Hdescr & _ & _ & _ & Hdue & Heval & Htotal)
  end.
  cbn [title description classroom_id due_date evaluation total_score
       with_id with_classroom].
  rewrite Htitle, Hdescr.
  split; [reflexivity|]. split; [reflexivity|]. split; [reflexivity|].
  split; [|split]; apply follows_override_get;
    [exact Hdue|exact Heval|exact Htotal].
Qed.

(** [create_from_template_fields] for the template and class of the sample
    store. *)
Lemma create_from_template_fields_witness :
  ∃ st' a,
    create_from_template sample_store body_overrides (Some 1)
    = (st', inr (mkResponse (FromTemplate a quiz_template) HTTP_201_CREATED))
    ∧ a ∈ activities st'
    ∧ title a = template_title quiz_template
    ∧ description a = template_description quiz_template
    ∧ classroom_id a = Some 1
    ∧ follows_override body_overrides "due_date" (due_date a)
                       (template_due_date quiz_template)
    ∧ follows_override body_overrides "evaluation" (evaluation a)
                       (template_evaluation quiz_template)
    ∧ follows_override body_overrides "total_score" (total_score a)
                       (template_total_score quiz_template).
Proof.
  apply (create_from_template_fields sample_store body_overrides 1 1
           quiz_template []).
  - apply (bool_decide_unpack _). vm_compute. exact I.
  - reflexivity.
  - reflexivity.
  - reflexivity.
Defined.

(** On the sample store the body [body_overrides] gives an activity with the
    due date and total score of the body and the evaluation of the
    template. *)
Example create_from_template_overrides :
  ∃ st' a,
    create_from_template sample_store body_overrides (Some 1)
    = (st', inr (mkResponse (FromTemplate a quiz_template) HTTP_201_CREATED))
    ∧ due_date a = JStr "2024-02-29"
    ∧ evaluation a = JNum 5
    ∧ total_score a = JNum 50.
Proof. eexists _, _. split; [vm_compute; reflexivity|]. repeat split. Qed.

(** C9: whatever the request and however it ends, the table of templates
    after [create_from_template] is the table before it, and a template sent
    back in the answer is a row of that table. *)
Theorem create_from_template_keeps_templates (st : Store)
      (request_data : gmap string json) (class_pk : option Z) :
  templates (create_from_template st request_data class_pk).1 = templates st
  ∧ ∀ a t code,
      (create_from_template st request_data class_pk).2
      = inr (mkResponse (FromTemplate a t) code) →
      ∃ k, templates st !! k = Some t.
Proof.
  unfold create_from_template.
  destruct (is_not_None _), class_pk as [c|];
    try (split; [reflexivity|]; intros ? ? ? [=]).
  destruct (ClassRoom_get st c) as [e|class_obj].
  { destruct e as [[]| |]; (split; [reflexivity|]; intros ? ? ? [=]). }
  unfold ActivityTemplate_get.
  destruct (to_pk _) as [e|k].
  { destruct e as [[]| |]; (split; [reflexivity|]; intros ? ? ? [=]). }
  destruct (templates st !! k) as [template|] eqn:Hk;
    [|split; [reflexivity|]; intros ? ? ? [=]].
  destruct (truthy _).
  - destruct (Team_filter_pk__in st _) as [e|ts].
    + destruct e as [[]| |]; (split; [reflexivity|]; intros ? ? ? [=]).
    + split; [reflexivity|]. intros ? ? ? [= _ <- _]. by exists k.
  - split; [reflexivity|]. intros ? ? ? [= _ <- _]. by exists k.
Qed.

(** C2, as the code has it: for a class id that names no class, the two
    team-scoped listings answer 404 "Class not found" and
    [create_from_template] answers 404 (or 400 when the body has no
    [template_id]) and leaves the store as it was; [ActivityController.list]
    makes no such check and answers 200 with the activities stored under
    that class id. *)
Theorem missing_class_is_checked_except_by_list (st : Store) (class_pk : Z) :
  class_pk ∉ classrooms st →
  (∀ team_pk,
     TeamActivitiesController.list st (Some class_pk) (Some team_pk)
     = mkResponse (Error "Class not found") HTTP_404_NOT_FOUND)
  ∧ (∀ team_pk,
       TeamActivitiesController.submitted_activities st (Some class_pk)
                                                     (Some team_pk)
       = mkResponse (Error "Class not found") HTTP_404_NOT_FOUND)
  ∧ (∀ request_data,
       create_from_template st request_data (Some class_pk)
       = (st, inr (if is_not_None (get request_data "template_id" JNull)
                   then mkResponse
                          (Error "ClassRoom matching query does not exist.")
                          HTTP_404_NOT_FOUND
                   else mkResponse
                          (Error "Template ID or Class ID not provided")
                          HTTP_400_BAD_REQUEST)))
  ∧ list st (Some class_pk)
    = mkResponse
        (Many (filter (λ a, classroom_id a = Some class_pk) (activities st)))
        HTTP_200_OK.
Proof.
  intros Hmissing. repeat split.
  - intros team_pk. unfold TeamActivitiesController.list.
    by rewrite (ClassRoom_exists_false _ _ Hmissing).
  - intros team_pk. unfold TeamActivitiesController.submitted_activities.
    by rewrite (ClassRoom_exists_false _ _ Hmissing).
  - intros request_data. unfold create_from_template.
    destruct (is_not_None _); [|reflexivity].
    by rewrite (ClassRoom_get_missing _ _ Hmissing).
Qed.

(** [missing_class_is_checked_except_by_list] for class 7, which the sample
    store does not have. *)
Lemma missing_class_is_checked_except_by_list_witness :
  (∀ team_pk,
     TeamActivitiesController.list sample_store (Some 7) (Some team_pk)
     = mkResponse (Error "Class not found") HTTP_404_NOT_FOUND)
  ∧ (∀ team_pk,
       TeamActivitiesController.submitted_activities sample_store (Some 7)
                                                     (Some team_pk)
       = mkResponse (Error "Class not found") HTTP_404_NOT_FOUND)
  ∧ (∀ request_data,
       create_from_template sample_store request_data (Some 7)
       = (sample_store,
          inr (if is_not_None (get request_data "template_id" JNull)
               then mkResponse
                      (Error "ClassRoom matching query does not exist.")
                      HTTP_404_NOT_FOUND
               else mkResponse
                      (Error "Template ID or Class ID not provided")
                      HTTP_400_BAD_REQUEST)))
  ∧ list sample_store (Some 7)
    = mkResponse
        (Many (filter (λ a, classroom_id a = Some 7) (activities sample_store)))
        HTTP_200_OK.
Proof.
  apply (missing_class_is_checked_except_by_list sample_store 7).
  apply (bool_decide_unpack _). vm_compute. exact I.
Defined.

(** * Further properties of the handlers *)

(** ** Rows and keys *)

Lemma with_teams_id (a : Activity) (ts : gset Z) : id (with_teams a ts) = id a.
Proof. reflexivity. Qed.

(** On a table whose keys are below [pk], replacing the teams of row [pk]
    touches the last row alone. *)
Lemma m2m_set_last (st : Store) (row : Activity) (ts : gset Z)
      (rows : Datatypes.list Activity) (n : Z) :
  Forall (λ a, id a < id row) rows →
  m2m_set (with_activities st (rows ++ [row]) n) (id row) ts
  = with_activities st (rows ++ [with_teams row ts]) n.
Proof.
  intros Hbelow. unfold m2m_set. cbn [activities next_id with_activities].
  unfold with_activities. cbn [classrooms teams templates]. f_equal.
  rewrite fmap_app. cbn [fmap list_fmap].
  rewrite bool_decide_eq_true_2 by done. f_equal.
  induction Hbelow as [|a rows' Ha _ IH]; [done|].
  cbn [fmap list_fmap]. rewrite bool_decide_eq_false_2 by lia.
  f_equal. exact IH.
Qed.

Lemma update_activity_last (st : Store) (row : Activity)
      (rows : Datatypes.list Activity) (n : Z) (ts : gset Z) :
  Forall (λ a, id a < id row) rows →
  update_activity (with_activities st (rows ++ [with_teams row ts]) n) row
  = with_activities st (rows ++ [with_teams row ts]) n.
Proof.
  intros Hbelow. unfold update_activity.
  cbn [activities next_id with_activities].
  unfold with_activities. cbn [classrooms teams templates]. f_equal.
  rewrite fmap_app. cbn [fmap list_fmap].
  rewrite with_teams_id, bool_decide_eq_true_2 by done. f_equal.
  induction Hbelow as [|a rows' Ha _ IH]; [done|].
  cbn [fmap list_fmap]. rewrite bool_decide_eq_false_2 by lia.
  f_equal. exact IH.
Qed.

Lemma keys_ok_insert (st : Store) (row : Activity) :
  keys_ok st → id row = next_id st →
  keys_ok (with_activities st (activities st ++ [row]) (next_id st + 1)).
Proof.
  intros [Hbelow Hnodup] Hid. split; cbn [activities next_id with_activities].
  - apply Forall_app. split.
    + eapply Forall_impl; [exact Hbelow|]. cbn. intros; lia.
    + apply Forall_singleton. lia.
  - rewrite fmap_app. apply NoDup_app. split; [exact Hnodup|]. split.
    + intros k (a & -> & Ha)%list_elem_of_fmap.
      cbn [fmap list_fmap]. rewrite list_elem_of_singleton.
      rewrite Forall_forall in Hbelow. specialize (Hbelow a Ha). lia.
    + apply NoDup_singleton.
Qed.

(** ** More on [ActivityController.create] *)

Section create_more.
Context `{ModelSerializer}.

(** X1: [create] answers 201 or 400 and nothing else: 201 for a valid body
    with a true [team_id], 400 for an invalid body or a false [team_id]; the
    only other outcome is an exception of the query on a valid body with a
    true [team_id].  In particular it never answers 404. *)
Theorem create_answers_201_or_400 (st : Store)
      (request_data : gmap string json) :
  let team_ids := get request_data "team_id" (JList []) in
  match (create st request_data).2 with
  | inr r =>
      (status r = HTTP_201_CREATED
       ∧ is_valid request_data = true ∧ truthy team_ids = true)
      ∨ (status r = HTTP_400_BAD_REQUEST
         ∧ (is_valid request_data = false ∨ truthy team_ids = false))
  | inl e =>
      (e = ValueError ∨ e = TypeError)
      ∧ is_valid request_data = true ∧ truthy team_ids = true
  end.
Proof.
  intros team_ids. subst team_ids. unfold create.
  destruct (is_valid request_data); [|cbn; tauto].
  rewrite save_eq. cbv beta iota zeta.
  destruct (truthy (get request_data "team_id" (JList []))); [|cbn; tauto].
  destruct (Team_filter_pk__in _ _) as [e|ts] eqn:Hq; [|cbn; tauto].
  destruct e as [m| |]; [|cbn; tauto..].
  by apply Team_filter_pk__in_no_DoesNotExist in Hq.
Qed.

(** X2: for a valid body whose [team_id] is a non-empty list of keys, with
    or without keys of teams that do not exist, the answer is 201 and the
    teams of the created activity are the listed keys that name a team. *)
Theorem create_attaches_the_existing_teams (st : Store)
      (request_data : gmap string json) (ids : Datatypes.list Z) :
  is_valid request_data = true →
  request_data !! "team_id" = Some (JList (JNum <$> ids)) →
  ids ≠ [] →
  ∃ st' a,
    create st request_data
    = (st', inr (mkResponse (One a) HTTP_201_CREATED))
    ∧ a ∈ activities st'
    ∧ ∀ t, t ∈ team_id a ↔ t ∈ ids ∧ t ∈ teams st.
Proof.
  intros Hvalid Hids Hne.
  destruct (create_with_numbers st request_data ids Hvalid Hids Hne)
    as (st' & Hrun & Hrow).
  eexists st', _. split; [exact Hrun|]. split; [exact Hrow|].
  intros t. cbn [team_id with_teams]. by rewrite elem_of_filter.
Qed.

(** What [create] does to the store, in every branch. *)
Lemma create_store_frame (st : Store) (request_data : gmap string json) :
  let st' := (create st request_data).1 in
  classrooms st' = classrooms st
  ∧ teams st' = teams st
  ∧ templates st' = templates st
  ∧ length (activities st')
    = (length (activities st) + (if is_valid request_data then 1 else 0))%nat
  ∧ next_id st' = next_id st + (if is_valid request_data then 1 else 0).
Proof.
  cbv zeta. unfold create.
  destruct (is_valid request_data);
    [|cbn; repeat split; [lia..]].
  rewrite save_eq. cbv beta iota zeta.
  assert (∀ o : result Response,
    let st1 := with_activities st
                 (activities st ++ [saved_row st request_data])
                 (next_id st + 1) in
    classrooms (st1, o).1 = classrooms st ∧ teams (st1, o).1 = teams st
    ∧ templates (st1, o).1 = templates st
    ∧ length (activities (st1, o).1) = (length (activities st) + 1)%nat
    ∧ next_id (st1, o).1 = next_id st + 1) as Hst1.
  { intros o. cbn. rewrite length_app. cbn. repeat split. }
  destruct (truthy _); [|apply Hst1].
  destruct (Team_filter_pk__in _ _) as [e|ts].
  { destruct e as [[]| |]; apply Hst1. }
  cbn [fst update_activity m2m_set activities next_id with_activities
       classrooms teams templates].
  rewrite !length_fmap, length_app. cbn. repeat split.
Qed.

(** X3: [create] inserts one row when the body is valid, whatever the answer,
    and none when it is not; the next key moves accordingly, and the tables
    of classes, teams and templates are left as they were. *)
Theorem create_inserts_a_row_iff_valid (st : Store)
      (request_data : gmap string json) :
  let st' := (create st request_data).1 in
  classrooms st' = classrooms st
  ∧ teams st' = teams st
  ∧ templates st' = templates st
  ∧ length (activities st')
    = (length (activities st) + (if is_valid request_data then 1 else 0))%nat
  ∧ next_id st' = next_id st + (if is_valid request_data then 1 else 0).
Proof.
  pose proof (create_store_frame st request_data) as Hframe.
  cbv zeta in *. destruct (create st request_data) as [st' o].
  cbn [fst] in *. destruct (is_valid request_data); exact Hframe.
Qed.

(** X4: on a table with sound keys, [create] keeps the keys sound and leaves
    every row that was there as it was: the table after the request begins
    with the table before it. *)
Theorem create_keeps_keys_ok (st : Store) (request_data : gmap string json) :
  keys_ok st →
  keys_ok (create st request_data).1
  ∧ activities st `prefix_of` activities (create st request_data).1.
Proof.
  intros Hok. unfold create.
  destruct (is_valid request_data); [|by split].
  rewrite save_eq. cbv beta iota zeta.
  assert (∀ row, id row = next_id st →
    keys_ok (with_activities st (activities st ++ [row]) (next_id st + 1))
    ∧ activities st `prefix_of` (activities st ++ [row])%list) as Hrow.
  { intros row Hid. split; [by apply keys_ok_insert|]. by eexists. }
  destruct (truthy _); [|by apply Hrow].
  destruct (Team_filter_pk__in _ _) as [e|ts].
  { destruct e as [[]| |]; by apply Hrow. }
  assert (Forall (λ a, id a < id (saved_row st request_data)) (activities st))
    as Hbelow by apply Hok.
  cbn [fst]. rewrite m2m_set_last, update_activity_last by exact Hbelow.
  by apply Hrow.
Qed.

(** X5: an activity that [create] has stored for class [c] is listed: by
    [ActivityController.list] under [c], and, when [c] is a class of the
    store, by [TeamActivitiesController.list] under [c] and each requested
    team that exists. *)
Theorem create_then_listed (st : Store) (request_data : gmap string json)
      (ids : Datatypes.list Z) (c : Z) :
  is_valid request_data = true →
  request_data !! "team_id" = Some (JList (JNum <$> ids)) →
  ids ≠ [] →
  classroom_id (validated_instance request_data) = Some c →
  ∃ st' a,
    create st request_data
    = (st', inr (mkResponse (One a) HTTP_201_CREATED))
    ∧ (∃ l, list st' (Some c) = mkResponse (Many l) HTTP_200_OK ∧ a ∈ l)
    ∧ (∀ t, c ∈ classrooms st → t ∈ ids → t ∈ teams st →
         ∃ l, TeamActivitiesController.list st' (Some c) (Some t)
              = mkResponse (Many l) HTTP_200_OK
              ∧ a ∈ l).
Proof.
  intros Hvalid Hids Hne Hclass.
  destruct (create_with_numbers st request_data ids Hvalid Hids Hne)
    as (st' & Hrun & Hrow).
  pose proof (create_store_frame st request_data) as Hframe.
  cbv zeta in Hframe. rewrite Hrun in Hframe. cbn [fst] in Hframe.
  destruct Hframe as (Hclasses & Hteams & _).
  eexists st', _. split; [exact Hrun|]. split.
  - eexists. split; [reflexivity|]. apply list_elem_of_filter.
    split; [exact Hclass|exact Hrow].
  - intros t Hc Ht Hteam. unfold TeamActivitiesController.list.
    rewrite ClassRoom_exists_true by (by rewrite Hclasses).
    rewrite Team_exists_true by (by rewrite Hteams).
    cbn [negb]. eexists. split; [reflexivity|]. apply list_elem_of_filter.
    split; [|exact Hrow]. split; [exact Hclass|].
    cbn [team_id with_teams]. by apply elem_of_filter.
Qed.
End create_more.

(** [create_attaches_the_existing_teams] on the body that asks for teams 1
    and 999. *)
Lemma create_attaches_the_existing_teams_witness :
  ∃ st' a,
    @create title_schema sample_store body_missing_team
    = (st', inr (mkResponse (One a) HTTP_201_CREATED))
    ∧ a ∈ activities st'
    ∧ ∀ t, t ∈ team_id a ↔ t ∈ [1; 999] ∧ t ∈ teams sample_store.
Proof.
  apply (@create_attaches_the_existing_teams title_schema sample_store
           body_missing_team [1; 999]).
  - reflexivity.
  - reflexivity.
  - discriminate.
Defined.

Lemma keys_ok_graded_store : keys_ok graded_store.
Proof. split; apply (bool_decide_unpack _); vm_compute; exact I. Qed.

(** [create_keeps_keys_ok] on the store with three activities. *)
Lemma create_keeps_keys_ok_witness :
  keys_ok (@create title_schema graded_store body_two_teams).1
  ∧ activities graded_store
    `prefix_of` activities (@create title_schema graded_store body_two_teams).1.
Proof.
  apply (@create_keeps_keys_ok title_schema graded_store body_two_teams).
  exact keys_ok_graded_store.
Defined.

(** [create_then_listed] for class 1 and teams 1 and 2. *)
Lemma create_then_listed_witness :
  ∃ st' a,
    @create title_schema sample_store body_class_two_teams
    = (st', inr (mkResponse (One a) HTTP_201_CREATED))
    ∧ (∃ l, list st' (Some 1) = mkResponse (Many l) HTTP_200_OK ∧ a ∈ l)
    ∧ (∀ t, 1 ∈ classrooms sample_store → t ∈ [1; 2] →
         t ∈ teams sample_store →
         ∃ l, TeamActivitiesController.list st' (Some 1) (Some t)
              = mkResponse (Many l) HTTP_200_OK
              ∧ a ∈ l).
Proof.
  apply (@create_then_listed title_schema sample_store body_class_two_teams
           [1; 2] 1).
  - reflexivity.
  - reflexivity.
  - discriminate.
  - reflexivity.
Defined.

(** ** More on [ActivityController.create_from_template] *)

(** X6: [create_from_template] answers 400 and leaves the store alone when
    the route has no class id or the body has no [template_id]; a
    [template_id] that is [null] counts as none. *)
Theorem create_from_template_missing_id_400 (st : Store)
      (request_data : gmap string json) (class_pk : option Z) :
  get request_data "template_id" JNull = JNull ∨ class_pk = None →
  create_from_template st request_data class_pk
  = (st, inr (mkResponse (Error "Template ID or Class ID not provided")
                         HTTP_400_BAD_REQUEST)).
Proof.
  intros [Hid| ->]; unfold create_from_template.
  - rewrite Hid. reflexivity.
  - by destruct (is_not_None _).
Qed.

Lemma create_from_template_missing_id_400_witness :
  create_from_template sample_store {[ "template_id" := JNull ]} (Some 1)
  = (sample_store,
     inr (mkResponse (Error "Template ID or Class ID not provided")
                     HTTP_400_BAD_REQUEST)).
Proof.
  apply (create_from_template_missing_id_400 sample_store
           {[ "template_id" := JNull ]} (Some 1)).
  left. reflexivity.
Defined.

(** X7: for an existing class and a [template_id] that is the key of no
    template, the answer is 404 with the message of
    [ActivityTemplate.DoesNotExist], and the store is left alone. *)
Theorem create_from_template_unknown_template_404 (st : Store)
      (request_data : gmap string json) (class_pk k : Z) :
  class_pk ∈ classrooms st →
  request_data !! "template_id" = Some (JNum k) →
  templates st !! k = None →
  create_from_template st request_data (Some class_pk)
  = (st, inr (mkResponse
                (Error "ActivityTemplate matching query does not exist.")
                HTTP_404_NOT_FOUND)).
Proof.
  intros Hclass Hid Hnone. unfold create_from_template.
  rewrite (get_Some _ _ _ _ Hid). cbn [is_not_None].
  rewrite (ClassRoom_get_found _ _ Hclass).
  unfold ActivityTemplate_get. cbn [to_pk]. by rewrite Hnone.
Qed.

Lemma create_from_template_unknown_template_404_witness :
  create_from_template sample_store body_unknown_template (Some 1)
  = (sample_store,
     inr (mkResponse
            (Error "ActivityTemplate matching query does not exist.")
            HTTP_404_NOT_FOUND)).
Proof.
  apply (create_from_template_unknown_template_404 sample_store
           body_unknown_template 1 5).
  - apply (bool_decide_unpack _). vm_compute. exact I.
  - reflexivity.
  - reflexivity.
Defined.

(** Every way [create_from_template] can end. *)
Lemma create_from_template_cases (st : Store) (request_data : gmap string json)
      (class_pk : option Z) :
  let out := create_from_template st request_data class_pk in
  (∃ a t,
     out = (with_activities st (activities st ++ [a]) (next_id st + 1),
            inr (mkResponse (FromTemplate a t) HTTP_201_CREATED))
     ∧ id a = next_id st)
  ∨ out = (st, inr (mkResponse (Error "Template ID or Class ID not provided")
                               HTTP_400_BAD_REQUEST))
  ∨ out = (st, inr (mkResponse
                      (Error "ClassRoom matching query does not exist.")
                      HTTP_404_NOT_FOUND))
  ∨ out = (st, inr (mkResponse
                      (Error "ActivityTemplate matching query does not exist.")
                      HTTP_404_NOT_FOUND))
  ∨ out = (st, inl ValueError)
  ∨ out = (st, inl TypeError).
Proof.
  cbv zeta. unfold create_from_template.
  destruct (is_not_None _), class_pk as [c|]; try tauto.
  unfold ClassRoom_get. case_bool_decide; [|cbn; tauto].
  unfold ActivityTemplate_get.
  destruct (to_pk _) as [e|k] eqn:Hpk.
  { destruct (get request_data "template_id" JNull); cbn in Hpk;
      try discriminate; injection Hpk as <-; cbn; tauto. }
  destruct (templates st !! k) as [template|]; [|cbn; tauto].
  destruct (truthy _).
  - destruct (Team_filter_pk__in st _) as [e|ts] eqn:Hq.
    + destruct e as [m| |]; [|cbn; tauto..].
      by apply Team_filter_pk__in_no_DoesNotExist in Hq.
    + left. eexists _, _. split; reflexivity.
  - left. eexists _, _. split; reflexivity.
Qed.

(** X8: an answer of [create_from_template] is 201, 400 or 404.  A 201 comes
    with exactly one new row, the activity of the answer, under the next
    key; a 400 or a 404 leaves the store alone, and a 404 always names the
    class or the template: no request is answered "One or more teams not
    found".  Otherwise an exception of a query escapes. *)
Theorem create_from_template_outcomes (st : Store)
      (request_data : gmap string json) (class_pk : option Z) :
  let out := create_from_template st request_data class_pk in
  match out.2 with
  | inr r =>
      (status r = HTTP_201_CREATED
       ∧ ∃ a t, data r = FromTemplate a t
                ∧ activities out.1 = (activities st ++ [a])%list
                ∧ id a = next_id st
                ∧ next_id out.1 = next_id st + 1)
      ∨ (out.1 = st
         ∧ ((status r = HTTP_400_BAD_REQUEST
             ∧ data r = Error "Template ID or Class ID not provided")
            ∨ (status r = HTTP_404_NOT_FOUND
               ∧ (data r = Error "ClassRoom matching query does not exist."
                  ∨ data r
                    = Error "ActivityTemplate matching query does not exist."))))
  | inl e => e = ValueError ∨ e = TypeError
  end.
Proof.
  cbv zeta.
  destruct (create_from_template_cases st request_data class_pk)
    as [(a & t & -> & Hid)|[->|[->|[->|[->| ->]]]]]; cbn [fst snd data status].
  - left. split; [reflexivity|]. by exists a, t.
  - right. split; [reflexivity|]. left. by split.
  - right. split; [reflexivity|]. right. split; [reflexivity|]. by left.
  - right. split; [reflexivity|]. right. split; [reflexivity|]. by right.
  - by left.
  - by right.
Qed.

(** X9: when the class and the template exist and [team_ids] is a non-empty
    list of keys, the new activity is given the listed keys that name a
    team; keys of teams that do not exist are dropped without an error. *)
Theorem create_from_template_attaches_the_existing_teams (st : Store)
      (request_data : gmap string json) (class_pk k : Z)
      (template : ActivityTemplate) (ids : Datatypes.list Z) :
  class_pk ∈ classrooms st →
  request_data !! "template_id" = Some (JNum k) →
  templates st !! k = Some template →
  request_data !! "team_ids" = Some (JList (JNum <$> ids)) →
  ids ≠ [] →
  ∃ st' a,
    create_from_template st request_data (Some class_pk)
    = (st', inr (mkResponse (FromTemplate a template) HTTP_201_CREATED))
    ∧ a ∈ activities st'
    ∧ ∀ t, t ∈ team_id a ↔ t ∈ ids ∧ t ∈ teams st.
Proof.
  intros Hclass Hid Htemplate Hteams Hne.
  pose proof (create_from_template_run st request_data class_pk k template ids
                Hclass Hid Htemplate (get_Some _ _ _ _ Hteams)) as Hrun.
  cbv zeta in Hrun. eexists _, _. split; [exact Hrun|]. split.
  { cbn [activities with_activities]. apply elem_of_app. right.
    by apply list_elem_of_singleton. }
  intros t. cbn [team_id with_id with_classroom].
  match goal with
  | |- context [apply_overrides ?a ?d ?e ?s] =>
      destruct (apply_overrides_fields a d e s)
        as (_ & _ & _ & _ & -> & _)
  end.
  cbn [team_id with_teams]. by rewrite elem_of_filter.
Qed.

Lemma create_from_template_attaches_the_existing_teams_witness :
  ∃ st' a,
    create_from_template sample_store body_template_teams (Some 1)
    = (st', inr (mkResponse (FromTemplate a quiz_template) HTTP_201_CREATED))
    ∧ a ∈ activities st'
    ∧ ∀ t, t ∈ team_id a ↔ t ∈ [2; 999] ∧ t ∈ teams sample_store.
Proof.
  apply (create_from_template_attaches_the_existing_teams sample_store
           body_template_teams 1 1 quiz_template [2; 999]).
  - apply (bool_decide_unpack _). vm_compute. exact I.
  - reflexivity.
  - reflexivity.
  - reflexivity.
  - discriminate.
Defined.

(** X10: after a successful instantiation for class [c], listing [c] gives
    what it gave before followed by the new activity, and listing any other
    class gives what it gave before. *)
Theorem create_from_template_then_listed (st : Store)
      (request_data : gmap string json) (class_pk k : Z)
      (template : ActivityTemplate) (ids : Datatypes.list Z) :
  class_pk ∈ classrooms st →
  request_data !! "template_id" = Some (JNum k) →
  templates st !! k = Some template →
  get request_data "team_ids" (JList []) = JList (JNum <$> ids) →
  ∃ st' a l,
    create_from_template st request_data (Some class_pk)
    = (st', inr (mkResponse (FromTemplate a template) HTTP_201_CREATED))
    ∧ list st (Some class_pk) = mkResponse (Many l) HTTP_200_OK
    ∧ list st' (Some class_pk) = mkResponse (Many (l ++ [a])) HTTP_200_OK
    ∧ ∀ c, c ≠ class_pk → list st' (Some c) = list st (Some c).
Proof.
  intros Hclass Hid Htemplate Hteams.
  pose proof (create_from_template_run st request_data class_pk k template ids
                Hclass Hid Htemplate Hteams) as Hrun.
  cbv zeta in Hrun. eexists _, _, _. split; [exact Hrun|].
  split; [reflexivity|]. unfold list. cbn [activities with_activities].
  split.
  - rewrite filter_app. do 3 f_equal. by rewrite filter_cons_True.
  - intros c Hc. rewrite filter_app. do 2 f_equal.
    rewrite filter_cons_False; [by rewrite app_nil_r|].
    cbn [classroom_id with_id with_classroom]. congruence.
Qed.

Lemma create_from_template_then_listed_witness :
  ∃ st' a l,
    create_from_template graded_store_with_template body_overrides (Some 1)
    = (st', inr (mkResponse (FromTemplate a quiz_template) HTTP_201_CREATED))
    ∧ list graded_store_with_template (Some 1)
      = mkResponse (Many l) HTTP_200_OK
    ∧ list st' (Some 1) = mkResponse (Many (l ++ [a])) HTTP_200_OK
    ∧ ∀ c, c ≠ 1 → list st' (Some c) = list graded_store_with_template (Some c).
Proof.
  apply (create_from_template_then_listed graded_store_with_template
           body_overrides 1 1 quiz_template []).
  - apply (bool_decide_unpack _). vm_compute. exact I.
  - reflexivity.
  - reflexivity.
  - reflexivity.
Defined.

(** X11: on a table with sound keys, [create_from_template] keeps the keys
    sound, leaves every row that was there as it was, and leaves the tables
    of classes and teams alone, however the request ends. *)
Theorem create_from_template_keeps_keys_ok (st : Store)
      (request_data : gmap string json) (class_pk : option Z) :
  keys_ok st →
  let st' := (create_from_template st request_data class_pk).1 in
  keys_ok st'
  ∧ activities st `prefix_of` activities st'
  ∧ classrooms st' = classrooms st
  ∧ teams st' = teams st.
Proof.
  intros Hok. cbv zeta.
  destruct (create_from_template_cases st request_data class_pk)
    as [(a & t & -> & Hid)|[->|[->|[->|[->| ->]]]]]; cbn [fst];
    try (split; [exact Hok|]; split; [|split; reflexivity];
         exists []; by rewrite app_nil_r).
  split; [by apply keys_ok_insert|]. split; [by eexists|]. by split.
Qed.

Lemma create_from_template_keeps_keys_ok_witness :
  let st' :=
    (create_from_template graded_store_with_template body_overrides (Some 1)).1
  in
  keys_ok st'
  ∧ activities graded_store_with_template `prefix_of` activities st'
  ∧ classrooms st' = classrooms graded_store_with_template
  ∧ teams st' = teams graded_store_with_template.
Proof.
  apply (create_from_template_keeps_keys_ok graded_store_with_template
           body_overrides (Some 1)).
  split; apply (bool_decide_unpack _); vm_compute; exact I.
Defined.

(** ** More on [TeamActivitiesController] *)

(** X12: when the class and the team exist, [list] answers 200 with exactly
    the stored activities of that class that have the team, in the order of
    the table; it is a part of what [ActivityController.list] gives for the
    class. *)
Theorem team_list_exact (st : Store) (class_pk team_pk : Z) :
  class_pk ∈ classrooms st →
  team_pk ∈ teams st →
  ∃ l l_class,
    TeamActivitiesController.list st (Some class_pk) (Some team_pk)
    = mkResponse (Many l) HTTP_200_OK
    ∧ (∀ a, a ∈ l ↔ a ∈ activities st ∧ classroom_id a = Some class_pk
                    ∧ team_pk ∈ team_id a)
    ∧ list st (Some class_pk) = mkResponse (Many l_class) HTTP_200_OK
    ∧ l `sublist_of` l_class.
Proof.
  intros Hclass Hteam. unfold TeamActivitiesController.list.
  rewrite (ClassRoom_exists_true _ _ Hclass), (Team_exists_true _ _ Hteam).
  cbn [negb]. eexists _, _. split; [reflexivity|]. split; [|split].
  - intros a. rewrite list_elem_of_filter. tauto.
  - reflexivity.
  - rewrite <- (list_filter_filter_l
                  (λ a, classroom_id a = Some class_pk ∧ team_pk ∈ team_id a)
                  (λ a, classroom_id a = Some class_pk))
      by tauto.
    apply sublist_filter.
Qed.

Lemma team_list_exact_witness :
  ∃ l l_class,
    TeamActivitiesController.list graded_store (Some 1) (Some 1)
    = mkResponse (Many l) HTTP_200_OK
    ∧ (∀ a, a ∈ l ↔ a ∈ activities graded_store ∧ classroom_id a = Some 1
                    ∧ 1 ∈ team_id a)
    ∧ list graded_store (Some 1) = mkResponse (Many l_class) HTTP_200_OK
    ∧ l `sublist_of` l_class.
Proof.
  apply (team_list_exact graded_store 1 1);
    apply (bool_decide_unpack _); vm_compute; exact I.
Defined.

(** X13: for the same ids the two handlers agree on every error, and when
    [list] answers with activities, [submitted_activities] answers with
    those of them that are submitted, in the same order. *)
Theorem submitted_activities_refines_list (st : Store)
      (class_pk team_pk : option Z) :
  (∃ msg code,
     TeamActivitiesController.list st class_pk team_pk
     = mkResponse (Error msg) code
     ∧ TeamActivitiesController.submitted_activities st class_pk team_pk
       = mkResponse (Error msg) code)
  ∨ (∃ l,
       TeamActivitiesController.list st class_pk team_pk
       = mkResponse (Many l) HTTP_200_OK
       ∧ TeamActivitiesController.submitted_activities st class_pk team_pk
         = mkResponse (Many (filter (λ a, submission_status a = true) l))
                      HTTP_200_OK).
Proof.
  unfold TeamActivitiesController.list,
    TeamActivitiesController.submitted_activities.
  destruct class_pk as [c|], team_pk as [t|];
    try (left; eexists _, _; split; reflexivity).
  destruct (ClassRoom_exists st c);
    [|left; eexists _, _; split; reflexivity].
  destruct (Team_exists st t);
    [|left; eexists _, _; split; reflexivity].
  right. eexists. split; [reflexivity|]. cbn [negb]. do 2 f_equal.
  rewrite list_filter_filter. apply list_filter_iff. intros a. tauto.
Qed.

(** X14: the status of a team-scoped listing is decided by the ids alone:
    400 exactly when an id is missing (the message is about the team when
    both are), 404 exactly when both are given and the class or the team
    does not exist, 200 exactly when both are given and exist.  The same
    holds for [submitted_activities]. *)
Theorem team_listing_status (st : Store) (class_pk team_pk : option Z) :
  let r := TeamActivitiesController.list st class_pk team_pk in
  let r' := TeamActivitiesController.submitted_activities st class_pk team_pk in
  status r' = status r
  ∧ (status r = HTTP_400_BAD_REQUEST ↔ class_pk = None ∨ team_pk = None)
  ∧ (status r = HTTP_404_NOT_FOUND ↔
     ∃ c t, class_pk = Some c ∧ team_pk = Some t
            ∧ (c ∉ classrooms st ∨ t ∉ teams st))
  ∧ (status r = HTTP_200_OK ↔
     ∃ c t, class_pk = Some c ∧ team_pk = Some t
            ∧ c ∈ classrooms st ∧ t ∈ teams st)
  ∧ (team_pk = None → data r = Error "Team ID not provided")
  ∧ (class_pk = None → is_Some team_pk →
     data r = Error "Class ID not provided").
Proof.
  cbv zeta. unfold TeamActivitiesController.list,
    TeamActivitiesController.submitted_activities,
    ClassRoom_exists, Team_exists.
  unfold HTTP_200_OK, HTTP_400_BAD_REQUEST, HTTP_404_NOT_FOUND.
  destruct class_pk as [c|], team_pk as [t|]; cbn [status data];
    [do 2 case_bool_decide; cbn [negb status data]|..];
    repeat apply conj; try reflexivity; try discriminate;
    try (by intros [|]); try (by intros (? & ? & ? & ? & ?));
    try (by intros _ [? ?]);
    try (intros _; exists c, t; tauto);
    try (intros (? & ? & [= <-] & [= <-] & ?); tauto);
    try (intros _; tauto).
Qed.

(** ** [team_ids] is optional for [create_from_template] *)

(** X15: unlike [create], [create_from_template] does not ask for teams: when
    the class and the template exist and [team_ids] is left out or false in
    Python ([null], [[]], [0], the empty string), no team is looked up and
    the answer is 201 with an activity stored without teams. *)
Theorem create_from_template_without_teams (st : Store)
      (request_data : gmap string json) (class_pk k : Z)
      (template : ActivityTemplate) :
  class_pk ∈ classrooms st →
  request_data !! "template_id" = Some (JNum k) →
  templates st !! k = Some template →
  truthy (get request_data "team_ids" (JList [])) = false →
  ∃ st' a,
    create_from_template st request_data (Some class_pk)
    = (st', inr (mkResponse (FromTemplate a template) HTTP_201_CREATED))
    ∧ activities st' = (activities st ++ [a])%list
    ∧ team_id a = ∅.
Proof.
  intros Hclass Hid Htemplate Hfalse. unfold create_from_template.
  rewrite (get_Some _ _ _ _ Hid), Hfalse. cbn [is_not_None].
  rewrite (ClassRoom_get_found _ _ Hclass).
  unfold ActivityTemplate_get. cbn [to_pk]. rewrite Htemplate.
  cbn [insert_activity]. eexists _, _. split; [reflexivity|].
  split; [reflexivity|]. cbn [team_id with_id with_classroom].
  match goal with
  | |- context [apply_overrides ?a ?d ?e ?s] =>
      destruct (apply_overrides_fields a d e s)
        as (_ & _ & _ & _ & -> & _)
  end.
  reflexivity.
Qed.

Lemma create_from_template_without_teams_witness :
  ∃ st' a,
    create_from_template sample_store
      {[ "template_id" := JNum 1; "team_ids" := JNull ]} (Some 1)
    = (st', inr (mkResponse (FromTemplate a quiz_template) HTTP_201_CREATED))
    ∧ activities st' = (activities sample_store ++ [a])%list
    ∧ team_id a = ∅.
Proof.
  apply (create_from_template_without_teams sample_store
           {[ "template_id" := JNum 1; "team_ids" := JNull ]} 1 1
           quiz_template).
  - apply (bool_decide_unpack _). vm_compute. exact I.
  - reflexivity.
  - reflexivity.
  - reflexivity.
Defined.
